(** * generate-icons.py: the SineDay Wave icon generator

    A shallow embedding of [src/generate-icons.py] and the properties of
    its wave path, marker, drawing calls and program entry point.

    Numbers.  Python [int] is [Z]; [//] is [Z.div] (both floor).  Python
    [float] is idealised as a real number: [math.sin] is [sin], [math.pi]
    is [PI], and the literals [0.15], [0.5], [1.5] are the rationals they
    denote.  [int(y)] on a float truncates toward zero ([py_int]).  The
    idealisation ignores rounding.  At a column past 0 where the real [y]
    is a whole number (the zero crossings 3x = size and 3x = 2*size) the
    double computed by the script falls a rounding error to either side
    of it: the sine of the double nearest to pi is about 1.2e-16, not 0,
    and [int] of a double just below a whole number is the row before.
    The statements below are therefore the ones that hold with slack:
    bounds on rows, signs away from the zero crossings, and rows given
    only where the exact value keeps a margin from the whole numbers.

    Effects.  The script prints lines and writes files; both are threaded
    through a small state-and-exit monad over [World]. *)

From Stdlib Require Import ZArith List Reals Lra Lia Psatz.
From Stdlib Require Import Ascii String DecimalString.
From stdpp Require Import gmap strings.

Import ListNotations.
Local Open Scope Z_scope.

(** ** Python numerics *)

Module Py.

(** [int(r)] for a float [r]: truncation toward zero. *)
Definition py_int (r : R) : Z :=
  if Rle_dec 0 r then Int_part r else - Int_part (- r).

(** [range(lo, hi)] as the list of its integers. *)
Definition range (lo hi : Z) : list Z :=
  map (fun i => lo + Z.of_nat i) (seq 0 (Z.to_nat (hi - lo))).

(** [str(n)] for an integer. *)
Definition str (n : Z) : string :=
  NilZero.string_of_int (Z.to_int n).

End Py.

(** ** The wave path (lines 21-31 of the script) *)

Module Wave.

Definition wave_amplitude (size : Z) : R := (IZR size * 0.15)%R.

Definition wave_center_y (size : Z) : Z := size / 2.

Definition wave_frequency : R := 1.5%R.

(** [normalized_x = (x / size) * 2 * math.pi * wave_frequency] *)
Definition normalized_x (size x : Z) : R :=
  (IZR x / IZR size * 2 * PI * wave_frequency)%R.

(** The sine term [math.sin(normalized_x)] of column [x]. *)
Definition sine_term (size x : Z) : R := sin (normalized_x size x).

(** [y = wave_center_y + math.sin(normalized_x) * wave_amplitude] *)
Definition wave_y (size x : Z) : R :=
  (IZR (wave_center_y size) + sine_term size x * wave_amplitude size)%R.

(** The list [points] after the loop [for x in range(0, size)]. *)
Definition points (size : Z) : list (Z * Z) :=
  map (fun x => (x, Py.py_int (wave_y size x))) (Py.range 0 size).

(** [width=max(2, size // 100)] of the stroke. *)
Definition line_width (size : Z) : Z := Z.max 2 (size / 100).

End Wave.

(** ** The marker (lines 36-42) *)

Module Marker.

Definition marker_x (size : Z) : Z := size / 2.

Definition marker_y (size : Z) : Z :=
  Wave.wave_center_y size - Py.py_int (Wave.wave_amplitude size * 0.5)%R.

Definition marker_radius (size : Z) : Z := Z.max 6 (size / 40).

Definition glow_radius (size : Z) : Z := marker_radius size + 4.

End Marker.

(** ** The imaging library as the script uses it *)

Module Pil.

(** The drawing calls the script issues on its [ImageDraw.Draw] object. *)
Inductive draw_op : Type :=
| Line (xy : list (Z * Z)) (fill : string) (width : Z)
| Ellipse (xy : Z * Z * Z * Z) (fill : string).

Definition op_fill (op : draw_op) : string :=
  match op with
  | Line _ fill _ => fill
  | Ellipse _ fill => fill
  end.

(** An image: its mode, its [(width, height)], the colour it was created
    with and the drawing calls applied to it so far, oldest first. *)
Record Image : Type := mkImage {
  mode : string;
  im_size : Z * Z;
  color : string;
  drawn : list draw_op
}.

Definition width (img : Image) : Z := fst (im_size img).
Definition height (img : Image) : Z := snd (im_size img).

(** [Image.new(mode, size, color=...)], for a size the library accepts:
    with a negative width or height the call raises instead. *)
Definition Image_new (mode : string) (size : Z * Z) (color : string) : Image :=
  mkImage mode size color [].

Definition draw (img : Image) (op : draw_op) : Image :=
  mkImage (mode img) (im_size img) (color img) (drawn img ++ [op]).

(** [draw.line(xy, fill=..., width=...)] *)
Definition draw_line (img : Image) (xy : list (Z * Z)) (fill : string)
    (width : Z) : Image :=
  draw img (Line xy fill width).

(** [draw.ellipse([x0, y0, x1, y1], fill=...)] *)
Definition draw_ellipse (img : Image) (xy : Z * Z * Z * Z) (fill : string)
    : Image :=
  draw img (Ellipse xy fill).

(** *** Colour strings: ['#rrggbb'] and ['#rrggbbaa'] *)

Definition hex_digit (c : ascii) : option Z :=
  let n := Z.of_nat (nat_of_ascii c) in
  if (48 <=? n) && (n <=? 57) then Some (n - 48)
  else if (65 <=? n) && (n <=? 70) then Some (n - 55)
  else if (97 <=? n) && (n <=? 102) then Some (n - 87)
  else None.

Fixpoint hex_pairs (s : string) : option (list Z) :=
  match s with
  | EmptyString => Some []
  | String hi (String lo rest) =>
      match hex_digit hi, hex_digit lo, hex_pairs rest with
      | Some h, Some l, Some cs => Some (16 * h + l :: cs)
      | _, _, _ => None
      end
  | String _ EmptyString => None
  end.

(** The channels a colour string denotes: [r; g; b] or [r; g; b; a]. *)
Definition getrgb (c : string) : option (list Z) :=
  match c with
  | String "#" digits =>
      match hex_pairs digits with
      | Some cs =>
          if (length cs =? 3)%nat || (length cs =? 4)%nat then Some cs
          else None
      | None => None
      end
  | _ => None
  end.

(** The opacity of a colour string, out of 255; a colour without an alpha
    pair is opaque. *)
Definition alpha (c : string) : option Z :=
  match getrgb c with
  | Some [_; _; _] => Some 255
  | Some [_; _; _; a] => Some a
  | _ => None
  end.

(** The red, green and blue channels of a colour string. *)
Definition rgb (c : string) : option (Z * Z * Z) :=
  match getrgb c with
  | Some (r :: g :: b :: _) => Some (r, g, b)
  | _ => None
  end.

(** *** Inks

    A fill given as a colour string becomes the ink of the drawing
    object through [ImageColor.getcolor(color, mode)], [mode] being the
    image's own mode for [ImageDraw.Draw(img)]: the opacity of the string
    is kept only when the mode has an alpha band, its name ending in A.
    (The greyscale and HSV modes, which convert the colour, are not
    modelled; the script uses none.) *)

Fixpoint last_char (s : string) : option ascii :=
  match s with
  | EmptyString => None
  | String c EmptyString => Some c
  | String _ rest => last_char rest
  end.

Definition mode_has_alpha (mode : string) : bool :=
  match last_char mode with
  | Some c => Ascii.eqb c "A"
  | None => false
  end.

Definition getcolor (color mode : string) : option (list Z) :=
  match getrgb color with
  | Some [r; g; b] =>
      Some (if mode_has_alpha mode then [r; g; b; 255] else [r; g; b])
  | Some [r; g; b; a] =>
      Some (if mode_has_alpha mode then [r; g; b; a] else [r; g; b])
  | _ => None
  end.

(** What a drawing call does to a pixel it covers, on the drawing object
    of an image without alpha band: the pixel becomes the ink. *)
Definition paint_ink (mode fill : string) (px : Z * Z * Z) : Z * Z * Z :=
  match getcolor fill mode with
  | Some [r; g; b] => (r, g, b)
  | _ => px
  end.

(** *** Pixels

    How a drawing call reaches a pixel is the library's business: which
    pixels a call touches ([covers]) and what a fill does to a pixel of an
    image of a given mode ([paint]) are parameters. *)

Section Raster.

Variable covers : draw_op -> Z * Z -> bool.
Variable paint : string -> string -> Z * Z * Z -> Z * Z * Z.

Definition paint_op (mode : string) (p : Z * Z) (px : Z * Z * Z)
    (op : draw_op) : Z * Z * Z :=
  if covers op p then paint mode (op_fill op) px else px.

(** The pixel of [img] at [p]: the creation colour, then every drawing
    call in order. *)
Definition getpixel (img : Image) (p : Z * Z) : option (Z * Z * Z) :=
  match rgb (color img) with
  | Some bg => Some (fold_left (paint_op (mode img) p) (drawn img) bg)
  | None => None
  end.

(** An ellipse is painted inside its bounding box. *)
Definition ellipse_in_bbox : Prop :=
  forall x0 y0 x1 y1 fill px py,
    covers (Ellipse (x0, y0, x1, y1) fill) (px, py) = true ->
    x0 <= px <= x1 /\ y0 <= py <= y1.

(** A stroke of width [w] stays within [w] rows of the rows its
    vertices span. *)
Definition line_near_vertices : Prop :=
  forall xy fill w px py lo hi,
    (forall q, In q xy -> lo <= snd q <= hi) ->
    covers (Line xy fill w) (px, py) = true ->
    lo - w <= py <= hi + w.

End Raster.

(** A rasteriser meeting both conditions: the filled ellipse by its
    equation, the stroke by the rows within half its width (rounded up)
    of a vertex. *)
Definition covers_std (op : draw_op) (p : Z * Z) : bool :=
  let '(px, py) := p in
  match op with
  | Ellipse (x0, y0, x1, y1) _ =>
      (x0 <=? px) && (px <=? x1) && (y0 <=? py) && (py <=? y1) &&
      let a := x1 - x0 in
      let b := y1 - y0 in
      let dx := 2 * px - (x0 + x1) in
      let dy := 2 * py - (y0 + y1) in
      (dx * dx * (b * b) + dy * dy * (a * a) <=? a * a * (b * b))
  | Line xy _ w =>
      (0 <=? w) &&
      existsb (fun q => Z.abs (py - snd q) <=? (w + 1) / 2) xy &&
      existsb (fun q => Z.abs (px - fst q) <=? (w + 1) / 2) xy
  end.

(** A fill that replaces the pixel by the fill's colour. *)
Definition paint_opaque (mode fill : string) (px : Z * Z * Z) : Z * Z * Z :=
  match rgb fill with
  | Some c => c
  | None => px
  end.

End Pil.

(** ** The world the script runs in *)

(** A file written by [img.save(filename, format)]: the format and the
    image that was encoded. *)
Record File : Type := mkFile {
  file_format : string;
  file_image : Pil.Image
}.

(** What the script does to its surroundings, in the order it does it. *)
Inductive event : Type :=
| Printed (line : string)
| Saved (filename : string) (f : File).

Record World : Type := mkWorld {
  events : list event;
  files : gmap string File
}.

(** A computation either returns or leaves the program with an exit
    status ([exit(code)]). *)
Inductive outcome (A : Type) : Type :=
| Returned (a : A)
| Exited (code : Z).
Arguments Returned {A} a.
Arguments Exited {A} code.

Definition prog (A : Type) : Type := World -> outcome A * World.

Definition ret {A : Type} (a : A) : prog A := fun w => (Returned a, w).

Definition bind {A B : Type} (m : prog A) (k : A -> prog B) : prog B :=
  fun w =>
    match m w with
    | (Returned a, w') => k a w'
    | (Exited code, w') => (Exited code, w')
    end.

(** [prog] is a monad in stdpp's sense, which gives [m ;; k]. *)
#[global] Instance prog_ret : MRet prog := @ret.
#[global] Instance prog_bind : MBind prog := fun A B k m => bind m k.

Definition print (line : string) : prog unit :=
  fun w => (Returned tt, mkWorld (events w ++ [Printed line]) (files w)).

Definition exit {A : Type} (code : Z) : prog A :=
  fun w => (Exited code, w).

(** [img.save(filename, format)]: creates or overwrites the file.  This
    is the call that succeeds, as it does for a non-empty image and a
    writable path.  A failing write (an empty image, a missing directory,
    no permission) raises in the library and ends the script there; that
    path is not modelled. *)
Definition save (img : Pil.Image) (filename format : string) : prog unit :=
  fun w =>
    let f := mkFile format img in
    (Returned tt,
     mkWorld (events w ++ [Saved filename f]) (<[filename := f]> (files w))).

(** The exit status of the process. *)
Definition exit_status {A : Type} (o : outcome A) : Z :=
  match o with
  | Returned _ => 0
  | Exited code => code
  end.

(** The lines printed and the files saved, read off a trace. *)
Definition printed (tr : list event) : list string :=
  flat_map (fun e => match e with Printed l => [l] | Saved _ _ => [] end) tr.

Definition saved (tr : list event) : list (string * File) :=
  flat_map (fun e => match e with Printed _ => [] | Saved n f => [(n, f)] end)
    tr.

(** ** The script *)

(** Lines 7-13: the guarded import. [pil_installed] says whether
    [from PIL import Image, ImageDraw] succeeds. *)
Definition import_guard (pil_installed : bool) : prog unit :=
  if pil_installed then ret tt
  else
    print "PIL (Pillow) not installed. Install with: pip install Pillow" ;;
    print
      "Alternatively, use the online tool or ImageMagick (see ICONS_TODO.md)" ;;
    exit 1.

(** Lines 17-54 of [create_icon]: the image as it stands at [img.save]. *)
Definition icon_image (size : Z) : Pil.Image :=
  let img := Pil.Image_new "RGB" (size, size) "#05060A" in
  let img :=
    Pil.draw_line img (Wave.points size) "#7AA7FF" (Wave.line_width size) in
  let marker_x := Marker.marker_x size in
  let marker_y := Marker.marker_y size in
  let marker_radius := Marker.marker_radius size in
  let glow_radius := Marker.glow_radius size in
  let img :=
    Pil.draw_ellipse img
      (marker_x - glow_radius, marker_y - glow_radius,
       marker_x + glow_radius, marker_y + glow_radius)
      "#7AA7FF40" in
  let img :=
    Pil.draw_ellipse img
      (marker_x - marker_radius, marker_y - marker_radius,
       marker_x + marker_radius, marker_y + marker_radius)
      "#7AA7FF" in
  img.

Definition created_line (size : Z) (filename : string) : string :=
  String.append "✓ Created "
    (String.append filename
       (String.append " ("
          (String.append (Py.str size)
             (String.append "x" (String.append (Py.str size) ")"))))).

(** [create_icon] where its library calls succeed: size >= 1 and a
    writable [filename], as in the four calls of [main]. *)
Definition create_icon (size : Z) (filename : string) : prog unit :=
  save (icon_image size) filename "PNG" ;;
  print (created_line size filename).

Definition newline : ascii := ascii_of_nat 10.

(** Lines 60-67: the body under [if __name__ == '__main__']. *)
Definition main : prog unit :=
  print "Generating SineDay Wave icons..." ;;
  create_icon 192 "icon-192.png" ;;
  create_icon 512 "icon-512.png" ;;
  create_icon 32 "favicon.png" ;;
  create_icon 180 "apple-touch-icon.png" ;;
  print (String newline "✓ All icons generated successfully!") ;;
  print (String newline "You can now delete ICONS_TODO.md and this script.").

(** The script run as a program. *)
Definition script (pil_installed : bool) : prog unit :=
  import_guard pil_installed ;; main.

(** The four icons of [main], in call order. *)
Definition icon_requests : list (Z * string) :=
  [(192, "icon-192.png"); (512, "icon-512.png"); (32, "favicon.png");
   (180, "apple-touch-icon.png")]%string.

(** The corners of a [size] by [size] image. *)
Definition corners (size : Z) : list (Z * Z) :=
  [(0, 0); (size - 1, 0); (0, size - 1); (size - 1, size - 1)].

(** ** The wave sample in the specification's words

    The specification writes the centre as [size/2], the real half of
    [size], where the script has [size // 2]. *)

Module Spec.

Definition wave_y (size x : Z) : R :=
  (IZR size / 2 + sin (2 * PI * 1.5 * IZR x / IZR size) * (0.15 * IZR size))%R.

End Spec.

(** * Properties *)

(** ** Truncation and ranges *)

Section Truncation.

Local Open Scope R_scope.

Lemma Int_part_between (r : R) (n : Z) :
  IZR n <= r < IZR n + 1 -> Int_part r = n.
Proof.
  intros [Hlo Hhi]. symmetry. apply Int_part_spec. lra.
Qed.

Lemma py_int_between (r : R) (n : Z) :
  (0 <= n)%Z -> IZR n <= r < IZR n + 1 -> Py.py_int r = n.
Proof.
  intros Hn [Hlo Hhi]. unfold Py.py_int.
  assert (0 <= IZR n) by (apply IZR_le; exact Hn).
  destruct (Rle_dec 0 r) as [_ | Hneg]; [| lra].
  apply Int_part_between. lra.
Qed.

Lemma py_int_IZR (n : Z) : Py.py_int (IZR n) = n.
Proof.
  unfold Py.py_int. destruct (Rle_dec 0 (IZR n)) as [_ | _].
  - apply Int_part_between. lra.
  - rewrite <- opp_IZR. rewrite (Int_part_between (IZR (- n)) (- n)).
    + lia.
    + lra.
Qed.

(** Truncation never moves a number away from zero by a whole unit. *)
Lemma py_int_nonneg (r : R) : -1 < r -> (0 <= Py.py_int r)%Z.
Proof.
  intros Hr. unfold Py.py_int. destruct (Rle_dec 0 r) as [Hpos | Hneg].
  - destruct (base_Int_part r) as [_ Hgt].
    apply le_IZR. apply Rnot_lt_le. intros Hlt.
    assert (IZR (Int_part r) <= -1).
    { replace (-1) with (IZR (-1)) by reflexivity. apply IZR_le.
      apply lt_IZR in Hlt. lia. }
    lra.
  - rewrite (Int_part_between (- r) 0); [lia | simpl; lra].
Qed.

Lemma py_int_le (r : R) (n : Z) :
  (0 <= n)%Z -> r < IZR n + 1 -> (Py.py_int r <= n)%Z.
Proof.
  intros Hn Hr. unfold Py.py_int. destruct (Rle_dec 0 r) as [Hpos | Hneg].
  - destruct (base_Int_part r) as [Hle _].
    assert (IZR (Int_part r) < IZR (n + 1)) by (rewrite plus_IZR; lra).
    apply lt_IZR in H. lia.
  - destruct (base_Int_part (- r)) as [_ Hgt].
    assert (-1 < IZR (Int_part (- r))) by lra.
    replace (-1) with (IZR (-1)) in H by reflexivity.
    apply lt_IZR in H. lia.
Qed.

Lemma py_int_ge (r : R) (n : Z) :
  IZR n <= r -> (0 <= n)%Z -> (n <= Py.py_int r)%Z.
Proof.
  intros Hr Hn. unfold Py.py_int.
  assert (0 <= IZR n) by (apply IZR_le; exact Hn).
  destruct (Rle_dec 0 r) as [Hpos | Hneg]; [| lra].
  destruct (base_Int_part r) as [_ Hgt].
  assert (IZR (n - 1) < IZR (Int_part r)) by (rewrite minus_IZR; lra).
  apply lt_IZR in H0. lia.
Qed.

End Truncation.

Lemma range_length (lo hi : Z) :
  length (Py.range lo hi) = Z.to_nat (hi - lo).
Proof. unfold Py.range. now rewrite length_map, length_seq. Qed.

Lemma range_nth (lo hi x : Z) :
  lo <= x < hi ->
  nth_error (Py.range lo hi) (Z.to_nat (x - lo)) = Some x.
Proof.
  intros Hx. unfold Py.range.
  rewrite nth_error_map, nth_error_seq.
  destruct (Nat.ltb_spec (Z.to_nat (x - lo)) (Z.to_nat (hi - lo))) as [_ | Hge].
  - simpl. f_equal. lia.
  - lia.
Qed.

Lemma range_In (lo hi x : Z) : In x (Py.range lo hi) <-> lo <= x < hi.
Proof.
  unfold Py.range. rewrite in_map_iff. split.
  - intros (i & <- & Hi). apply in_seq in Hi. lia.
  - intros Hx. exists (Z.to_nat (x - lo)). split; [lia |].
    apply in_seq. lia.
Qed.

(** ** The wave path *)

Lemma points_length (size : Z) :
  length (Wave.points size) = Z.to_nat size.
Proof.
  unfold Wave.points. rewrite length_map, range_length. f_equal. lia.
Qed.

Lemma points_nth (size x : Z) :
  0 <= x < size ->
  nth_error (Wave.points size) (Z.to_nat x)
  = Some (x, Py.py_int (Wave.wave_y size x)).
Proof.
  intros Hx. unfold Wave.points. rewrite nth_error_map.
  replace (Z.to_nat x) with (Z.to_nat (x - 0)) by (f_equal; lia).
  rewrite range_nth by exact Hx. reflexivity.
Qed.

Lemma points_In (size : Z) (q : Z * Z) :
  In q (Wave.points size) <->
  0 <= fst q < size /\ snd q = Py.py_int (Wave.wave_y size (fst q)).
Proof.
  unfold Wave.points. rewrite in_map_iff. split.
  - intros (x & <- & Hx). apply range_In in Hx. simpl. auto.
  - intros [Hx Hy]. exists (fst q). split.
    + destruct q as [qx qy]. simpl in *. now subst qy.
    + now apply range_In.
Qed.

(** The script's sample in one formula. *)
Lemma wave_y_formula (size x : Z) :
  size <> 0 ->
  Wave.wave_y size x
  = (IZR (size / 2)
     + sin (2 * PI * 1.5 * IZR x / IZR size) * (0.15 * IZR size))%R.
Proof.
  intros Hsize. unfold Wave.wave_y, Wave.sine_term, Wave.normalized_x,
    Wave.wave_center_y, Wave.wave_amplitude, Wave.wave_frequency.
  assert (IZR size <> 0%R) by (apply not_0_IZR; exact Hsize).
  f_equal. f_equal; [f_equal; field; assumption | ring].
Qed.

Lemma half_even (size : Z) :
  size mod 2 = 0 -> IZR (size / 2) = (IZR size / 2)%R.
Proof.
  intros Heven.
  assert (Hs : size = 2 * (size / 2)) by (pose proof (Z.div_mod size 2); lia).
  rewrite Hs at 2. rewrite mult_IZR. field.
Qed.

Lemma points_columns (size : Z) :
  map fst (Wave.points size) = Py.range 0 size.
Proof.
  unfold Wave.points. rewrite map_map. simpl. apply map_id.
Qed.

(** C1, as amended.  For every size >= 1 the wave path has exactly one
    sample per integer column x of [0, size), in column order.  The
    sample of column x is (x, int(y)) for the script's
    y = size // 2 + sin(2*pi*1.5*x/size) * (0.15*size), centred on the
    floor half [size // 2], which is the [size/2] of the specification
    whenever size is even: its row is n wherever the exact value of that
    formula lies in [n + 10^-6, n + 1 - 10^-6].  The margin leaves out
    the columns where the exact value is a whole number (the zero
    crossings 3x = size and 3x = 2*size), where the script's double can
    fall on either side of it.  The phase reached at x = size is 1.5 full
    turns. *)
Theorem wave_path_samples (size : Z) :
  1 <= size ->
  length (Wave.points size) = Z.to_nat size /\
  map fst (Wave.points size) = Py.range 0 size /\
  (forall x n, 0 <= x < size -> 0 <= n ->
     (IZR n + 1 / 1000000
      <= IZR (size / 2)
         + sin (2 * PI * 1.5 * IZR x / IZR size) * (0.15 * IZR size)
      <= IZR n + 1 - 1 / 1000000)%R ->
     nth_error (Wave.points size) (Z.to_nat x) = Some (x, n)) /\
  (size mod 2 = 0 ->
   forall x n, 0 <= x < size -> 0 <= n ->
     (IZR n + 1 / 1000000 <= Spec.wave_y size x
      <= IZR n + 1 - 1 / 1000000)%R ->
     nth_error (Wave.points size) (Z.to_nat x) = Some (x, n)) /\
  Wave.normalized_x size size = (1.5 * (2 * PI))%R.
Proof.
  intros Hsize.
  assert (Hrow : forall x n, 0 <= x < size -> 0 <= n ->
    (IZR n + 1 / 1000000
     <= IZR (size / 2)
        + sin (2 * PI * 1.5 * IZR x / IZR size) * (0.15 * IZR size)
     <= IZR n + 1 - 1 / 1000000)%R ->
    nth_error (Wave.points size) (Z.to_nat x) = Some (x, n)).
  { intros x n Hx Hn Hy. rewrite points_nth by exact Hx.
    rewrite wave_y_formula by lia. do 2 f_equal.
    apply py_int_between; [exact Hn |]. lra. }
  split; [apply points_length |]. split; [apply points_columns |].
  split; [exact Hrow |]. split.
  - intros Heven x n Hx Hn Hy. apply Hrow; try assumption.
    unfold Spec.wave_y in Hy. rewrite half_even by exact Heven. exact Hy.
  - unfold Wave.normalized_x, Wave.wave_frequency.
    assert (IZR size <> 0%R) by (apply not_0_IZR; lia).
    field. assumption.
Qed.

Lemma wave_path_samples_witness :
  nth_error (Wave.points 192) 32 = Some (32, 124).
Proof.
  apply (proj1 (proj2 (proj2 (wave_path_samples 192 ltac:(lia)))) 32 124);
    [lia | lia |].
  replace (2 * PI * 1.5 * 32 / 192)%R with (PI / 2)%R by lra.
  rewrite sin_PI2. change (192 / 2) with 96. lra.
Defined.

Lemma sqrt3_gt : (4 / 3 < sqrt 3)%R.
Proof.
  pose proof (sqrt_pos 3) as Hpos.
  pose proof (sqrt_def 3 ltac:(lra)) as Hsq.
  nra.
Qed.

Lemma sin_3PI5_bounds : (2 / 3 < sin (3 * PI / 5) <= 1)%R.
Proof.
  split; [| apply SIN_bound].
  replace (3 * PI / 5)%R with (PI - 2 * PI / 5)%R by field.
  rewrite sin_PI_x.
  pose proof PI_RGT_0 as Hpi.
  assert (Hlt : (sin (PI / 3) < sin (2 * PI / 5))%R)
    by (apply sin_increasing_1; lra).
  rewrite sin_PI3 in Hlt. pose proof sqrt3_gt. lra.
Qed.

Lemma wave_y_5_1 :
  Wave.wave_y 5 1 = (2 + sin (3 * PI / 5) * 0.75)%R.
Proof.
  rewrite wave_y_formula by lia.
  replace (5 / 2) with 2 by reflexivity.
  replace (2 * PI * 1.5 * 1 / 5)%R with (3 * PI / 5)%R by lra.
  replace (0.15 * 5)%R with 0.75%R by lra.
  reflexivity.
Qed.

Lemma spec_wave_y_5_1 :
  Spec.wave_y 5 1 = (2.5 + sin (3 * PI / 5) * 0.75)%R.
Proof.
  unfold Spec.wave_y.
  replace (2 * PI * 1.5 * 1 / 5)%R with (3 * PI / 5)%R by lra.
  replace (0.15 * 5)%R with 0.75%R by lra.
  replace (5 / 2)%R with 2.5%R by lra.
  reflexivity.
Qed.

(** C1, counterexample.  At size = 5, column 1, the script's sample is
    (1, 2): it truncates 2 + 0.75*sin(3*pi/5), between 2.5 and 2.75.  With
    the centre size/2 = 2.5 of the claim the value truncated is between 3
    and 3.25, whose truncation is 3. *)
Lemma wave_sample_odd_size_differs :
  nth_error (Wave.points 5) 1 = Some (1, 2) /\
  Py.py_int (Spec.wave_y 5 1) = 3 /\
  nth_error (Wave.points 5) 1 <> Some (1, Py.py_int (Spec.wave_y 5 1)).
Proof.
  pose proof sin_3PI5_bounds as [Hlo Hhi].
  assert (Hcode : nth_error (Wave.points 5) 1 = Some (1, 2)).
  { change 1%nat with (Z.to_nat 1). rewrite points_nth by lia.
    rewrite wave_y_5_1. do 2 f_equal.
    apply py_int_between; [lia |]. simpl. lra. }
  assert (Hspec : Py.py_int (Spec.wave_y 5 1) = 3).
  { rewrite spec_wave_y_5_1. apply py_int_between; [lia |]. simpl. lra. }
  split; [exact Hcode |]. split; [exact Hspec |].
  rewrite Hcode, Hspec. intros Heq. discriminate Heq.
Qed.

(** ** The marker *)

(** Half the amplitude, truncated, is the integer [3 * size // 40]. *)
Lemma half_amplitude_trunc (size : Z) :
  0 <= size ->
  Py.py_int (Wave.wave_amplitude size * 0.5)%R = 3 * size / 40.
Proof.
  intros Hsize. unfold Wave.wave_amplitude.
  pose proof (Z.div_mod (3 * size) 40 ltac:(lia)) as Hdm.
  pose proof (Z.mod_pos_bound (3 * size) 40 ltac:(lia)) as Hmod.
  set (q := 3 * size / 40) in *. set (m := (3 * size) mod 40) in *.
  assert (HR : (3 * IZR size = 40 * IZR q + IZR m)%R).
  { rewrite <- !mult_IZR, <- plus_IZR. f_equal. exact Hdm. }
  assert (Hm0 : (0 <= IZR m)%R) by (apply IZR_le; lia).
  assert (Hm40 : (IZR m <= 39)%R) by (apply IZR_le; lia).
  apply py_int_between; [subst q; apply Z.div_pos; lia |]. lra.
Qed.

(** C5.  For every size >= 1 the marker centre is x = size // 2 and
    y = size // 2 - int(0.5 * 0.15 * size): at the horizontal midpoint
    and above the centre row by the truncated half amplitude.  For
    size = 192 it is (96, 82). *)
Theorem marker_center (size : Z) :
  1 <= size ->
  Marker.marker_x size = size / 2 /\
  Marker.marker_y size = size / 2 - Py.py_int (0.5 * 0.15 * IZR size)%R /\
  Marker.marker_y size = size / 2 - 3 * size / 40 /\
  Marker.marker_y size <= Wave.wave_center_y size /\
  (Marker.marker_x 192, Marker.marker_y 192) = (96, 82).
Proof.
  intros Hsize.
  assert (Hy : forall s, 0 <= s -> Marker.marker_y s = s / 2 - 3 * s / 40).
  { intros s Hs. unfold Marker.marker_y, Wave.wave_center_y.
    now rewrite half_amplitude_trunc. }
  split; [reflexivity |]. split; [| split; [| split]].
  - unfold Marker.marker_y, Wave.wave_center_y, Wave.wave_amplitude.
    do 2 f_equal. ring.
  - apply Hy. lia.
  - rewrite Hy by lia. unfold Wave.wave_center_y.
    assert (0 <= 3 * size / 40) by (apply Z.div_pos; lia). lia.
  - unfold Marker.marker_x. rewrite Hy by lia. reflexivity.
Qed.

Lemma marker_center_witness :
  Marker.marker_y 32 = 32 / 2 - 3 * 32 / 40.
Proof.
  exact (proj1 (proj2 (proj2 (marker_center 32 ltac:(lia))))).
Defined.

(** ** Proportions *)

(** C8, counterexample.  No constant ratio gives the marker radius of the
    two icons of sizes 32 and 192: both have radius 6. *)
Lemma marker_radius_not_a_fixed_fraction :
  ~ exists k : R,
      forall size, 0 < size ->
        IZR (Marker.marker_radius size) = (k * IZR size)%R.
Proof.
  intros [k Hk].
  pose proof (Hk 32 ltac:(lia)) as H32.
  pose proof (Hk 192 ltac:(lia)) as H192.
  replace (Marker.marker_radius 32) with 6 in H32 by reflexivity.
  replace (Marker.marker_radius 192) with 6 in H192 by reflexivity.
  lra.
Qed.

(** C8, as amended.  For every size > 0 the wave amplitude is the fixed
    fraction 0.15 of size.  The marker radius is max(6, size // 40): the
    constant 6 for every size below 280, the floor of size/40 from 240
    on, and the exact fraction size/40 for the multiples of 40 from 240
    on and for no other size. *)
Theorem amplitude_and_radius_proportions (size : Z) :
  0 < size ->
  Wave.wave_amplitude size = (0.15 * IZR size)%R /\
  Marker.marker_radius size = Z.max 6 (size / 40) /\
  (size < 280 -> Marker.marker_radius size = 6) /\
  (240 <= size -> Marker.marker_radius size = size / 40) /\
  (IZR (Marker.marker_radius size) = (IZR size / 40)%R <->
   240 <= size /\ size mod 40 = 0).
Proof.
  intros Hsize. unfold Marker.marker_radius, Wave.wave_amplitude.
  split; [ring |]. split; [reflexivity |].
  pose proof (Z.div_mod size 40 ltac:(lia)) as Hdm.
  pose proof (Z.mod_pos_bound size 40 ltac:(lia)) as Hmod.
  split; [| split].
  - intros Hlt. apply Z.max_l. lia.
  - intros Hge. apply Z.max_r. lia.
  - split.
    + intros Heq.
      assert (H40 : IZR (40 * Z.max 6 (size / 40)) = IZR size)
        by (rewrite mult_IZR; lra).
      apply eq_IZR in H40. lia.
    + intros [Hge Hdiv]. rewrite Z.max_r by lia.
      rewrite Hdiv, Z.add_0_r in Hdm. rewrite Hdm at 2.
      rewrite mult_IZR. field.
Qed.

Lemma amplitude_and_radius_proportions_witness :
  Marker.marker_radius 512 = 512 / 40.
Proof.
  exact (proj1 (proj2 (proj2 (proj2
    (amplitude_and_radius_proportions 512 ltac:(lia))))) ltac:(lia)).
Defined.

(** ** The wave of the 192-pixel icon *)

Lemma normalized_x_192 (x : Z) :
  Wave.normalized_x 192 x = (IZR x * (PI / 64))%R.
Proof. unfold Wave.normalized_x, Wave.wave_frequency. lra. Qed.

Lemma sine_term_192_0 : Wave.sine_term 192 0 = 0%R.
Proof.
  unfold Wave.sine_term. rewrite normalized_x_192.
  replace (0 * (PI / 64))%R with 0%R by ring. apply sin_0.
Qed.

Lemma sine_term_192_32 : Wave.sine_term 192 32 = 1%R.
Proof.
  unfold Wave.sine_term. rewrite normalized_x_192.
  replace (32 * (PI / 64))%R with (PI / 2)%R by field. apply sin_PI2.
Qed.

Lemma sine_term_192_64 : (Wave.sine_term 192 64 < 1 / 2)%R.
Proof.
  unfold Wave.sine_term. rewrite normalized_x_192.
  replace (64 * (PI / 64))%R with PI by field. rewrite sin_PI. lra.
Qed.

Lemma sine_term_192_rising (x : Z) :
  0 <= x < 32 -> (Wave.sine_term 192 x < 1)%R.
Proof.
  intros [Hlo Hhi]. rewrite <- sin_PI2.
  unfold Wave.sine_term. rewrite normalized_x_192.
  pose proof PI_RGT_0 as Hpi.
  assert (0 <= IZR x)%R by (apply IZR_le; lia).
  assert (IZR x <= 31)%R by (apply IZR_le; lia).
  apply sin_increasing_1; nra.
Qed.

(** C7, counterexample.  At size = 192 the sine term is not at a
    maximum at column size/(2*1.5) = 64, half a period in: it is below
    1/2 there, and 1 at column 32. *)
Lemma half_period_column_is_not_a_peak :
  192 / 3 = 64 /\
  (Wave.sine_term 192 64 < Wave.sine_term 192 32)%R /\
  ~ (forall x, 0 <= x < 192 ->
       (Wave.sine_term 192 x <= Wave.sine_term 192 64)%R).
Proof.
  pose proof sine_term_192_64 as H64. pose proof sine_term_192_32 as H32.
  split; [reflexivity |]. split; [lra |].
  intros Hmax. specialize (Hmax 32 ltac:(lia)). lra.
Qed.

(** C7, as amended.  For size = 192 the wave sample of column 0 is
    96 + sin(0)*28.8 = 96, the centre row.  The sine term attains its
    first maximum, 1, at the quarter-period column size/(4*1.5) = 32: no
    column exceeds it and every earlier column is strictly below it; the
    sample there is int(96 + 28.8) = 124. *)
Theorem wave_192_center_and_first_peak :
  Wave.wave_y 192 0 = 96%R /\
  nth_error (Wave.points 192) 0 = Some (0, 96) /\
  Wave.sine_term 192 32 = 1%R /\
  (forall x, 0 <= x < 192 ->
     (Wave.sine_term 192 x <= Wave.sine_term 192 32)%R) /\
  (forall x, 0 <= x < 32 ->
     (Wave.sine_term 192 x < Wave.sine_term 192 32)%R) /\
  nth_error (Wave.points 192) 32 = Some (32, 124).
Proof.
  assert (Hy0 : Wave.wave_y 192 0 = 96%R).
  { unfold Wave.wave_y. rewrite sine_term_192_0.
    replace (Wave.wave_center_y 192) with 96 by reflexivity. ring. }
  split; [exact Hy0 |]. split; [| split; [| split; [| split]]].
  - change 0%nat with (Z.to_nat 0). rewrite points_nth by lia.
    rewrite Hy0. now rewrite py_int_IZR.
  - apply sine_term_192_32.
  - intros x _. rewrite sine_term_192_32. apply SIN_bound.
  - intros x Hx. rewrite sine_term_192_32. now apply sine_term_192_rising.
  - change 32%nat with (Z.to_nat 32). rewrite points_nth by lia.
    do 2 f_equal. unfold Wave.wave_y. rewrite sine_term_192_32.
    unfold Wave.wave_amplitude.
    replace (Wave.wave_center_y 192) with 96 by reflexivity.
    apply py_int_between; [lia |]. simpl. lra.
Qed.

(** ** The wave stays inside the image *)

Lemma half_bounds (size : Z) :
  (2 * IZR (size / 2) <= IZR size <= 2 * IZR (size / 2) + 1)%R.
Proof.
  pose proof (Z.div_mod size 2 ltac:(lia)) as Hdm.
  pose proof (Z.mod_pos_bound size 2 ltac:(lia)) as Hmod.
  split.
  - rewrite <- mult_IZR. apply IZR_le. lia.
  - replace (2 * IZR (size / 2) + 1)%R with (IZR (2 * (size / 2) + 1))
      by (rewrite plus_IZR, mult_IZR; reflexivity).
    apply IZR_le. lia.
Qed.

(** |sin| <= 1 confines the real-valued y to centre +- amplitude. *)
Lemma wave_y_confined (size x : Z) :
  0 <= size ->
  (IZR (size / 2) - 0.15 * IZR size <= Wave.wave_y size x
   <= IZR (size / 2) + 0.15 * IZR size)%R.
Proof.
  intros Hsize. unfold Wave.wave_y, Wave.wave_center_y, Wave.wave_amplitude.
  pose proof (SIN_bound (Wave.normalized_x size x)) as [Hlo Hhi].
  fold (Wave.sine_term size x) in Hlo, Hhi.
  assert (0 <= IZR size)%R by (apply IZR_le; exact Hsize).
  nra.
Qed.

(** Column 0 is on the centre row: sin(0) = 0. *)
Lemma wave_y_column_0 (size : Z) :
  Py.py_int (Wave.wave_y size 0) = size / 2.
Proof.
  unfold Wave.wave_y, Wave.sine_term, Wave.normalized_x, Wave.wave_center_y.
  replace (0 / IZR size * 2 * PI * Wave.wave_frequency)%R with 0%R
    by (unfold Rdiv; ring).
  rewrite sin_0, Rmult_0_l, Rplus_0_r. apply py_int_IZR.
Qed.

(** The rows a sample can fall in, as integers. *)
Lemma wave_row_bounds (size x : Z) :
  5 <= size ->
  size / 2 - 3 * size / 20 - 1 <= Py.py_int (Wave.wave_y size x)
  <= size / 2 + 3 * size / 20.
Proof.
  intros Hsize.
  pose proof (wave_y_confined size x ltac:(lia)) as [Hlo Hhi].
  pose proof (Z.div_mod (3 * size) 20 ltac:(lia)) as Hdm.
  pose proof (Z.mod_pos_bound (3 * size) 20 ltac:(lia)) as Hmod.
  pose proof (Z.div_mod size 2 ltac:(lia)) as Hdm2.
  pose proof (Z.mod_pos_bound size 2 ltac:(lia)) as Hmod2.
  set (c := size / 2) in *. set (a := 3 * size / 20) in *.
  set (m := (3 * size) mod 20) in *.
  assert (HR : (3 * IZR size = 20 * IZR a + IZR m)%R).
  { rewrite <- !mult_IZR, <- plus_IZR. f_equal. exact Hdm. }
  assert (Hm0 : (0 <= IZR m)%R) by (apply IZR_le; lia).
  assert (Hm19 : (IZR m <= 19)%R) by (apply IZR_le; lia).
  split.
  - apply py_int_ge; [| lia].
    rewrite !minus_IZR. simpl (IZR 1). lra.
  - apply py_int_le; [lia |]. rewrite plus_IZR. lra.
Qed.

(** C10, counterexample.  At size = 1 the interval
    [size//2 - 0.15*size, size//2 + 0.15*size] is [-0.15, 0.15], which is
    not contained in [0, size). *)
Lemma confinement_interval_leaves_image_at_size_1 :
  (IZR (Wave.wave_center_y 1) - Wave.wave_amplitude 1 = -0.15)%R /\
  ~ (0 <= IZR (Wave.wave_center_y 1) - Wave.wave_amplitude 1)%R.
Proof.
  unfold Wave.wave_amplitude.
  replace (Wave.wave_center_y 1) with 0 by reflexivity.
  split; lra.
Qed.

(** C10, as amended.  For every size >= 1 every point (x, int(y)) of the
    wave path has 0 <= x < size and 0 <= int(y) < size, and |sin| <= 1
    confines the real-valued y to
    [size//2 - 0.15*size, size//2 + 0.15*size].  That interval is
    contained in [0, size) for every size >= 2; for size = 1 it is
    [-0.15, 0.15], and the path is the single point (0, 0). *)
Theorem wave_path_inside_image (size : Z) :
  1 <= size ->
  (forall q, In q (Wave.points size) ->
     0 <= fst q < size /\ 0 <= snd q < size) /\
  (forall x,
     (IZR (size / 2) - 0.15 * IZR size <= Wave.wave_y size x
      <= IZR (size / 2) + 0.15 * IZR size)%R) /\
  (2 <= size ->
   (0 <= IZR (size / 2) - 0.15 * IZR size)%R /\
   (IZR (size / 2) + 0.15 * IZR size < IZR size)%R) /\
  Wave.points 1 = [(0, 0)].
Proof.
  intros Hsize.
  pose proof (half_bounds size) as [Hc1 Hc2].
  assert (HsR : (1 <= IZR size)%R) by (apply IZR_le; exact Hsize).
  split; [| split; [| split]].
  - intros q Hq. apply points_In in Hq as [Hx Hy]. split; [exact Hx |].
    rewrite Hy.
    pose proof (wave_y_confined size (fst q) ltac:(lia)) as [Hlo Hhi].
    split.
    + apply py_int_nonneg. lra.
    + assert (Py.py_int (Wave.wave_y size (fst q)) <= size - 1); [| lia].
      apply py_int_le; [lia |]. rewrite minus_IZR. simpl (IZR 1). lra.
  - intros x. apply wave_y_confined. lia.
  - intros Hsize2.
    assert (2 <= IZR size)%R by (apply IZR_le; exact Hsize2).
    split; lra.
  - change (Wave.points 1) with [(0, Py.py_int (Wave.wave_y 1 0))].
    rewrite wave_y_column_0. reflexivity.
Qed.

Lemma wave_path_inside_image_witness :
  (0 <= IZR (32 / 2) - 0.15 * IZR 32)%R /\
  (IZR (32 / 2) + 0.15 * IZR 32 < IZR 32)%R.
Proof.
  exact (proj1 (proj2 (proj2 (wave_path_inside_image 32 ltac:(lia))))
           ltac:(lia)).
Defined.

(** ** Running the script *)

Lemma print_run (line : string) (w : World) :
  print line w
  = (Returned tt, mkWorld (events w ++ [Printed line]) (files w)).
Proof. reflexivity. Qed.

Lemma create_icon_run (size : Z) (filename : string) (w : World) :
  create_icon size filename w
  = (Returned tt,
     mkWorld
       (events w ++ [Saved filename (mkFile "PNG" (icon_image size));
                     Printed (created_line size filename)])
       (<[filename := mkFile "PNG" (icon_image size)]> (files w))).
Proof.
  unfold create_icon. cbv [mbind prog_bind bind save print events files].
  rewrite <- app_assoc. reflexivity.
Qed.

(** One run of [main]: the trace it appends and the four files it writes
    over the file system it finds, in call order. *)
Lemma main_run (w : World) :
  main w
  = (Returned tt,
     mkWorld
       (events w ++
        [Printed "Generating SineDay Wave icons...";
         Saved "icon-192.png" (mkFile "PNG" (icon_image 192));
         Printed (created_line 192 "icon-192.png");
         Saved "icon-512.png" (mkFile "PNG" (icon_image 512));
         Printed (created_line 512 "icon-512.png");
         Saved "favicon.png" (mkFile "PNG" (icon_image 32));
         Printed (created_line 32 "favicon.png");
         Saved "apple-touch-icon.png" (mkFile "PNG" (icon_image 180));
         Printed (created_line 180 "apple-touch-icon.png");
         Printed (String newline "✓ All icons generated successfully!");
         Printed
           (String newline
              "You can now delete ICONS_TODO.md and this script.")])
       (<["apple-touch-icon.png" := mkFile "PNG" (icon_image 180)]>
          (<["favicon.png" := mkFile "PNG" (icon_image 32)]>
             (<["icon-512.png" := mkFile "PNG" (icon_image 512)]>
                (<["icon-192.png" := mkFile "PNG" (icon_image 192)]>
                   (files w)))))).
Proof.
  unfold main. cbv [mbind prog_bind bind].
  rewrite print_run.
  repeat (rewrite create_icon_run; cbv [events files]).
  rewrite !print_run. cbv [events files].
  rewrite <- !app_assoc. reflexivity.
Qed.

Lemma script_installed_run (w : World) : script true w = main w.
Proof.
  unfold script, import_guard. cbv [mbind prog_bind bind ret].
  destruct (main w) as [[a | code] w']; reflexivity.
Qed.

Lemma script_missing_run (w : World) :
  script false w
  = (Exited 1,
     mkWorld
       (events w ++
        [Printed "PIL (Pillow) not installed. Install with: pip install Pillow";
         Printed
           "Alternatively, use the online tool or ImageMagick (see ICONS_TODO.md)"])
       (files w)).
Proof.
  unfold script, import_guard. cbv [mbind prog_bind bind print exit events files].
  rewrite <- app_assoc. reflexivity.
Qed.

Lemma saved_app (tr1 tr2 : list event) :
  saved (tr1 ++ tr2) = saved tr1 ++ saved tr2.
Proof. unfold saved. apply flat_map_app. Qed.

Lemma printed_app (tr1 tr2 : list event) :
  printed (tr1 ++ tr2) = printed tr1 ++ printed tr2.
Proof. unfold printed. apply flat_map_app. Qed.

Lemma icon_image_dimensions (size : Z) :
  Pil.mode (icon_image size) = "RGB" /\
  Pil.width (icon_image size) = size /\
  Pil.height (icon_image size) = size.
Proof. repeat split. Qed.

(** C2.  With the imaging dependency available, the entry point returns
    normally after exactly four render calls, in this order:
    (192, 'icon-192.png'), (512, 'icon-512.png'), (32, 'favicon.png'),
    (180, 'apple-touch-icon.png').  Each call saves, in PNG format, an
    image whose width and height are both [size], and that file is what
    the file system holds under the call's name afterwards. *)
Theorem entry_point_renders_four_icons (w : World) :
  let r := script true w in
  fst r = Returned tt /\
  saved (events (snd r))
  = saved (events w) ++
    map (fun rq => (snd rq, mkFile "PNG" (icon_image (fst rq))))
      [(192, "icon-192.png"); (512, "icon-512.png"); (32, "favicon.png");
       (180, "apple-touch-icon.png")]%string /\
  (forall size filename,
     In (size, filename) icon_requests ->
     files (snd r) !! filename = Some (mkFile "PNG" (icon_image size)) /\
     Pil.width (icon_image size) = size /\
     Pil.height (icon_image size) = size).
Proof.
  cbv zeta. rewrite script_installed_run, main_run. cbn [fst snd events files].
  split; [reflexivity |]. split.
  - rewrite saved_app. reflexivity.
  - intros size filename Hin. split; [| split; reflexivity].
    cbv [icon_requests In] in Hin.
    destruct Hin as [H | [H | [H | [H | []]]]]; inversion H; subst;
      clear H; simplify_map_eq; reflexivity.
Qed.

(** C3.  With the imaging dependency absent, the program prints its two
    lines of install guidance, leaves with exit status 1, saves nothing
    and leaves the file system as it found it. *)
Theorem missing_dependency_exits (w : World) :
  let r := script false w in
  fst r = Exited 1 /\
  exit_status (fst r) <> 0 /\
  printed (events (snd r))
  = printed (events w) ++
    ["PIL (Pillow) not installed. Install with: pip install Pillow";
     "Alternatively, use the online tool or ImageMagick (see ICONS_TODO.md)"
    ]%string /\
  saved (events (snd r)) = saved (events w) /\
  files (snd r) = files w.
Proof.
  cbv zeta. rewrite script_missing_run. cbn [fst snd events files].
  split; [reflexivity |]. split; [discriminate |]. split; [| split].
  - rewrite printed_app. reflexivity.
  - rewrite saved_app. simpl. apply app_nil_r.
  - reflexivity.
Qed.

(** ** The drawing calls *)

Lemma icon_image_drawn (size : Z) :
  Pil.drawn (icon_image size)
  = [Pil.Line (Wave.points size) "#7AA7FF" (Wave.line_width size);
     Pil.Ellipse
       (Marker.marker_x size - Marker.glow_radius size,
        Marker.marker_y size - Marker.glow_radius size,
        Marker.marker_x size + Marker.glow_radius size,
        Marker.marker_y size + Marker.glow_radius size)
       "#7AA7FF40";
     Pil.Ellipse
       (Marker.marker_x size - Marker.marker_radius size,
        Marker.marker_y size - Marker.marker_radius size,
        Marker.marker_x size + Marker.marker_radius size,
        Marker.marker_y size + Marker.marker_radius size)
       "#7AA7FF"].
Proof. reflexivity. Qed.

(** C6.  The glow is not alpha-blended.  The script hands the glow call
    the accent colour with opacity 64 of 255, ['#7AA7FF40'], but draws on
    the drawing object of an image of mode RGB: the ink of that fill is
    the opaque accent colour (122, 167, 255), the same as the ink of the
    solid disc, and a pixel the glow call covers becomes exactly that
    colour whatever was under it. *)
Theorem glow_is_painted_opaque
    (covers : Pil.draw_op -> Z * Z -> bool)
    (size : Z) (p : Z * Z) (under : Z * Z * Z) :
  let glow :=
    Pil.Ellipse
      (Marker.marker_x size - (Marker.marker_radius size + 4),
       Marker.marker_y size - (Marker.marker_radius size + 4),
       Marker.marker_x size + (Marker.marker_radius size + 4),
       Marker.marker_y size + (Marker.marker_radius size + 4))
      "#7AA7FF40" in
  nth_error (Pil.drawn (icon_image size)) 1 = Some glow /\
  Pil.alpha "#7AA7FF40" = Some 64 /\
  Pil.mode (icon_image size) = "RGB" /\
  Pil.getcolor "#7AA7FF40" (Pil.mode (icon_image size))
  = Some [122; 167; 255] /\
  Pil.getcolor "#7AA7FF40" (Pil.mode (icon_image size))
  = Pil.getcolor "#7AA7FF" (Pil.mode (icon_image size)) /\
  Pil.paint_op covers Pil.paint_ink (Pil.mode (icon_image size)) p under glow
  = if covers glow p then (122, 167, 255) else under.
Proof.
  cbv zeta. rewrite icon_image_drawn.
  change (Pil.mode (icon_image size)) with "RGB"%string.
  repeat split.
Qed.

(** ** The corners *)

Section Corners.

Variable covers : Pil.draw_op -> Z * Z -> bool.
Variable paint : string -> string -> Z * Z * Z -> Z * Z * Z.
Hypothesis ellipse_bbox : Pil.ellipse_in_bbox covers.
Hypothesis line_near : Pil.line_near_vertices covers.

Lemma stroke_misses_corner (size : Z) (p : Z * Z) :
  24 <= size -> In p (corners size) ->
  covers
    (Pil.Line (Wave.points size) "#7AA7FF" (Wave.line_width size)) p
  = false.
Proof.
  intros Hsize Hp. destruct p as [px py].
  destruct (covers _ _) eqn:Hcov; [exfalso | reflexivity].
  apply (line_near _ _ _ _ _
           (size / 2 - 3 * size / 20 - 1) (size / 2 + 3 * size / 20))
    in Hcov.
  - unfold Wave.line_width in Hcov.
    assert (Hpy : py = 0 \/ py = size - 1).
    { cbv [corners In] in Hp.
      destruct Hp as [H | [H | [H | [H | []]]]]; inversion H; auto. }
    clear Hp. Z.div_mod_to_equations. lia.
  - intros q Hq. apply points_In in Hq as [_ ->].
    apply wave_row_bounds. lia.
Qed.

Lemma disc_misses_corner (size r : Z) (fill : string) (p : Z * Z) :
  24 <= size -> In p (corners size) ->
  0 <= r <= Marker.glow_radius size ->
  covers
    (Pil.Ellipse
       (Marker.marker_x size - r, Marker.marker_y size - r,
        Marker.marker_x size + r, Marker.marker_y size + r) fill) p
  = false.
Proof.
  intros Hsize Hp Hr. destruct p as [px py].
  destruct (covers _ _) eqn:Hcov; [exfalso | reflexivity].
  apply ellipse_bbox in Hcov as [Hx _].
  unfold Marker.glow_radius, Marker.marker_radius, Marker.marker_x in *.
  assert (Hpx : px = 0 \/ px = size - 1).
  { cbv [corners In] in Hp.
    destruct Hp as [H | [H | [H | [H | []]]]]; inversion H; auto. }
  clear Hp. Z.div_mod_to_equations. lia.
Qed.

(** From 24 pixels on, no drawing call reaches a corner. *)
Lemma corner_keeps_background (size : Z) (p : Z * Z) :
  24 <= size -> In p (corners size) ->
  Pil.getpixel covers paint (icon_image size) p = Some (5, 6, 10).
Proof.
  intros Hsize Hp. unfold Pil.getpixel.
  rewrite icon_image_drawn.
  change (Pil.rgb (Pil.color (icon_image size))) with (Some (5, 6, 10)).
  cbn [fold_left]. unfold Pil.paint_op.
  rewrite stroke_misses_corner by assumption.
  rewrite !disc_misses_corner; try assumption; try reflexivity.
  all: unfold Marker.glow_radius, Marker.marker_radius; lia.
Qed.

End Corners.

Lemma covers_std_ellipse : Pil.ellipse_in_bbox Pil.covers_std.
Proof.
  intros x0 y0 x1 y1 fill px py Hcov. cbn in Hcov.
  repeat (apply andb_prop in Hcov as [Hcov ?]). lia.
Qed.

Lemma covers_std_line : Pil.line_near_vertices Pil.covers_std.
Proof.
  intros xy fill w px py lo hi Hrows Hcov. cbn in Hcov.
  apply andb_prop in Hcov as [Hcov _].
  apply andb_prop in Hcov as [Hw Hrow].
  apply existsb_exists in Hrow as (q & Hq & Hnear).
  specialize (Hrows q Hq).
  assert ((w + 1) / 2 <= w) by (Z.div_mod_to_equations; lia).
  lia.
Qed.

(** C9.  For each of the four generated icons, the pixel at each of the
    four corners is the background colour #05060A = (5, 6, 10): neither
    the wave stroke nor the glow disc nor the marker disc reaches a
    corner, given that the library paints an ellipse inside its bounding
    box and a stroke of width [w] within [w] rows of its vertices. *)
Theorem corners_are_background
    (covers : Pil.draw_op -> Z * Z -> bool)
    (paint : string -> string -> Z * Z * Z -> Z * Z * Z)
    (size : Z) (filename : string) (p : Z * Z) :
  Pil.ellipse_in_bbox covers ->
  Pil.line_near_vertices covers ->
  In (size, filename) icon_requests ->
  In p (corners size) ->
  Pil.getpixel covers paint (icon_image size) p = Pil.rgb "#05060A" /\
  Pil.rgb "#05060A" = Some (5, 6, 10).
Proof.
  intros Hell Hline Hreq Hp. split; [| reflexivity].
  change (Pil.rgb "#05060A") with (Some (5, 6, 10)).
  apply corner_keeps_background; try assumption.
  cbv [icon_requests In] in Hreq.
  destruct Hreq as [H | [H | [H | [H | []]]]]; inversion H; lia.
Qed.

Lemma corners_are_background_witness :
  Pil.getpixel Pil.covers_std Pil.paint_opaque (icon_image 32) (31, 0)
  = Pil.rgb "#05060A" /\
  Pil.rgb "#05060A" = Some (5, 6, 10).
Proof.
  apply (corners_are_background Pil.covers_std Pil.paint_opaque
           32 "favicon.png" (31, 0)).
  - exact covers_std_ellipse.
  - exact covers_std_line.
  - cbv [icon_requests In]. auto.
  - cbv [corners In]. auto.
Defined.

(** * Further properties of the script *)

(** ** Stroke and marker sizes (lines 34 and 39-42) *)

(** X1.  The stroke is at least 2 pixels wide at every size, 2 pixels
    exactly below size 300 and size // 100 from 200 on; it never shrinks
    as the size grows, and it is never wider than the marker's radius, so
    the marker disc always stands out from the stroke. *)
Theorem stroke_width_bounds (size : Z) :
  2 <= Wave.line_width size /\
  (size < 300 -> Wave.line_width size = 2) /\
  (200 <= size -> Wave.line_width size = size / 100) /\
  (forall bigger, size <= bigger ->
     Wave.line_width size <= Wave.line_width bigger) /\
  Wave.line_width size <= Marker.marker_radius size /\
  Wave.line_width size < 2 * Marker.marker_radius size + 1.
Proof.
  unfold Wave.line_width, Marker.marker_radius.
  repeat split; try intros; Z.div_mod_to_equations; lia.
Qed.

(** X2.  For every size >= 1 the marker centre is a pixel of the image:
    0 <= marker_x < size and 0 <= marker_y < size, with marker_y on or
    above the centre row. *)
Theorem marker_center_inside_image (size : Z) :
  1 <= size ->
  0 <= Marker.marker_x size < size /\
  0 <= Marker.marker_y size <= Wave.wave_center_y size /\
  Marker.marker_y size < size.
Proof.
  intros Hsize. unfold Marker.marker_x, Marker.marker_y, Wave.wave_center_y.
  rewrite half_amplitude_trunc by lia.
  Z.div_mod_to_equations. lia.
Qed.

Lemma marker_center_inside_image_witness :
  0 <= Marker.marker_x 32 < 32 /\
  0 <= Marker.marker_y 32 <= Wave.wave_center_y 32 /\
  Marker.marker_y 32 < 32.
Proof.
  exact (marker_center_inside_image 32 ltac:(lia)).
Defined.

(** X3.  The glow's bounding box, marker centre +- (marker radius + 4),
    lies inside the image exactly from size 22 on: below that the glow is
    drawn over the image's edge.  The solid disc's bounding box lies
    inside the image exactly from size 13 on. *)
Theorem glow_box_inside_image_from_22 (size : Z) :
  1 <= size ->
  (0 <= Marker.marker_x size - Marker.glow_radius size /\
   Marker.marker_x size + Marker.glow_radius size <= size - 1 /\
   0 <= Marker.marker_y size - Marker.glow_radius size /\
   Marker.marker_y size + Marker.glow_radius size <= size - 1
   <-> 22 <= size) /\
  (0 <= Marker.marker_x size - Marker.marker_radius size /\
   Marker.marker_x size + Marker.marker_radius size <= size - 1 /\
   0 <= Marker.marker_y size - Marker.marker_radius size /\
   Marker.marker_y size + Marker.marker_radius size <= size - 1
   <-> 13 <= size).
Proof.
  intros Hsize.
  unfold Marker.glow_radius, Marker.marker_radius, Marker.marker_x,
    Marker.marker_y, Wave.wave_center_y.
  rewrite half_amplitude_trunc by lia.
  split; split; intros; Z.div_mod_to_equations; lia.
Qed.

Lemma glow_box_inside_image_from_22_witness :
  0 <= Marker.marker_x 32 - Marker.glow_radius 32 /\
  Marker.marker_x 32 + Marker.glow_radius 32 <= 32 - 1 /\
  0 <= Marker.marker_y 32 - Marker.glow_radius 32 /\
  Marker.marker_y 32 + Marker.glow_radius 32 <= 32 - 1.
Proof.
  apply (proj1 (glow_box_inside_image_from_22 32 ltac:(lia))). lia.
Defined.

(** ** The shape of the wave (lines 23-31) *)

Lemma normalized_x_scaled (size x : Z) :
  size <> 0 ->
  Wave.normalized_x size x = (IZR x * (3 * PI / IZR size))%R.
Proof.
  intros Hsize. unfold Wave.normalized_x, Wave.wave_frequency.
  assert (IZR size <> 0%R) by (apply not_0_IZR; exact Hsize).
  replace 1.5%R with (3 / 2)%R by lra. field. assumption.
Qed.

(** X5.  For every even size >= 2 the column of the marker, size // 2,
    is where the wave is at its extreme: the sine term there is -1, so y
    is centre - amplitude, the least y of the whole wave.  The marker
    centre is strictly below that sample on the screen (its row number
    is larger): the marker does not sit on the polyline.  When size is a
    multiple of 6 the opposite extreme, sine term 1, is reached at column
    size // 6. *)
Theorem wave_extreme_at_marker_column (size : Z) :
  2 <= size -> size mod 2 = 0 ->
  Wave.sine_term size (size / 2) = (-1)%R /\
  Wave.wave_y size (size / 2)
  = (IZR (Wave.wave_center_y size) - Wave.wave_amplitude size)%R /\
  (forall x, (Wave.wave_y size (size / 2) <= Wave.wave_y size x)%R) /\
  Py.py_int (Wave.wave_y size (Marker.marker_x size))
  < Marker.marker_y size /\
  (size mod 6 = 0 -> Wave.sine_term size (size / 6) = 1%R).
Proof.
  intros Hsize Heven.
  assert (HsR : (2 <= IZR size)%R) by (apply IZR_le; exact Hsize).
  assert (Hnz : IZR size <> 0%R) by lra.
  assert (Hsin : Wave.sine_term size (size / 2) = (-1)%R).
  { unfold Wave.sine_term. rewrite normalized_x_scaled by lia.
    rewrite half_even by exact Heven.
    replace (IZR size / 2 * (3 * PI / IZR size))%R with (3 * (PI / 2))%R
      by (field; assumption).
    apply sin_3PI2. }
  assert (Hy : Wave.wave_y size (size / 2)
               = (IZR (Wave.wave_center_y size) - Wave.wave_amplitude size)%R).
  { unfold Wave.wave_y. rewrite Hsin. ring. }
  split; [exact Hsin |]. split; [exact Hy |]. split; [| split].
  - intros x. rewrite Hy. unfold Wave.wave_y, Wave.wave_amplitude.
    pose proof (SIN_bound (Wave.normalized_x size x)) as [Hlo _].
    fold (Wave.sine_term size x) in Hlo. nra.
  - unfold Marker.marker_x, Marker.marker_y.
    rewrite Hy, half_amplitude_trunc by lia.
    unfold Wave.wave_center_y, Wave.wave_amplitude.
    pose proof (Z.div_mod (3 * size) 40 ltac:(lia)) as Hdm.
    pose proof (Z.mod_pos_bound (3 * size) 40 ltac:(lia)) as Hmod.
    pose proof (Z.div_mod size 2 ltac:(lia)) as Hdm2.
    set (c := size / 2) in *. set (q := 3 * size / 40) in *.
    set (m := (3 * size) mod 40) in *.
    assert (HR : (3 * IZR size = 40 * IZR q + IZR m)%R).
    { rewrite <- !mult_IZR, <- plus_IZR. f_equal. exact Hdm. }
    assert (Hm0 : (0 <= IZR m)%R) by (apply IZR_le; lia).
    assert (Py.py_int (IZR c - IZR size * 0.15)%R <= c - q - 1); [| lia].
    apply py_int_le; [lia |].
    rewrite !minus_IZR. simpl (IZR 1). lra.
  - intros Hsix. unfold Wave.sine_term. rewrite normalized_x_scaled by lia.
    assert (Hs6 : size = 6 * (size / 6))
      by (pose proof (Z.div_mod size 6 ltac:(lia)); lia).
    assert (HR6 : (IZR size = 6 * IZR (size / 6))%R)
      by (rewrite Hs6 at 1; apply mult_IZR).
    replace (IZR (size / 6) * (3 * PI / IZR size))%R with (PI / 2)%R
      by (rewrite HR6; field; lra).
    apply sin_PI2.
Qed.

Lemma wave_extreme_at_marker_column_witness :
  Py.py_int (Wave.wave_y 192 (Marker.marker_x 192)) < Marker.marker_y 192.
Proof.
  exact (proj1 (proj2 (proj2 (proj2
    (wave_extreme_at_marker_column 192 ltac:(lia) ltac:(reflexivity)))))).
Defined.

Lemma sin_step (t d : R) :
  (0 < d -> d < 2 * PI -> - d < sin (t + d) - sin t < d)%R.
Proof.
  intros Hd0 Hd2. rewrite form4.
  replace ((t + d - t) / 2)%R with (d / 2)%R by field.
  pose proof (COS_bound ((t + d + t) / 2)) as [Hc1 Hc2].
  pose proof (sin_gt_0 (d / 2) ltac:(lra) ltac:(lra)) as Hs0.
  pose proof (sin_lt_x (d / 2) ltac:(lra)) as Hs1.
  split; nra.
Qed.

Lemma py_int_close (r1 r2 : R) :
  (0 <= r1 -> 0 <= r2 -> r1 - r2 < 2 ->
   (Py.py_int r1 - Py.py_int r2 <= 2)%Z)%R.
Proof.
  intros H1 H2 Hd. unfold Py.py_int.
  destruct (Rle_dec 0 r1) as [_ | ?]; [| lra].
  destruct (Rle_dec 0 r2) as [_ | ?]; [| lra].
  destruct (base_Int_part r1) as [Hle1 _].
  destruct (base_Int_part r2) as [_ Hgt2].
  assert (IZR (Int_part r1 - Int_part r2) < IZR 3)%R
    by (rewrite minus_IZR; simpl (IZR 3); lra).
  apply lt_IZR in H. lia.
Qed.

(** X6.  The polyline has no vertical jumps: the real-valued y of two
    neighbouring columns differs by less than 0.45*pi, which is below 2,
    and their samples int(y) by at most 2 rows, at every size. *)
Theorem adjacent_samples_within_two_rows (size x : Z) :
  0 <= x -> x + 1 < size ->
  (Rabs (Wave.wave_y size (x + 1) - Wave.wave_y size x) < 0.45 * PI)%R /\
  (0.45 * PI < 2)%R /\
  exists y0 y1,
    nth_error (Wave.points size) (Z.to_nat x) = Some (x, y0) /\
    nth_error (Wave.points size) (Z.to_nat (x + 1)) = Some (x + 1, y1) /\
    Z.abs (y1 - y0) <= 2.
Proof.
  intros Hx0 Hx1.
  assert (HsR : (2 <= IZR size)%R) by (apply IZR_le; lia).
  assert (Hnz : IZR size <> 0%R) by lra.
  pose proof PI_RGT_0 as Hpi0. pose proof PI_4 as Hpi4.
  set (d := (3 * PI / IZR size)%R).
  assert (Hd0 : (0 < d)%R).
  { unfold d. apply Rdiv_lt_0_compat; lra. }
  assert (Hdsz : (d * IZR size = 3 * PI)%R) by (unfold d; field; assumption).
  assert (Hd2 : (d < 2 * PI)%R) by nra.
  assert (Hstep : (Wave.wave_y size (x + 1) - Wave.wave_y size x
                   = (sin (IZR x * d + d) - sin (IZR x * d))
                     * (IZR size * 0.15))%R).
  { unfold Wave.wave_y, Wave.sine_term, Wave.wave_amplitude.
    rewrite !normalized_x_scaled by lia. fold d.
    replace (IZR (x + 1) * d)%R with (IZR x * d + d)%R
      by (rewrite plus_IZR; simpl (IZR 1); ring).
    ring. }
  pose proof (sin_step (IZR x * d) d Hd0 Hd2) as [Hlo Hhi].
  assert (Hamp : (d * (IZR size * 0.15) = 0.45 * PI)%R) by nra.
  assert (Hdiff : (- (0.45 * PI)
                   < Wave.wave_y size (x + 1) - Wave.wave_y size x
                   < 0.45 * PI)%R).
  { rewrite Hstep, <- Hamp. split; nra. }
  split; [apply Rabs_def1; lra |]. split; [lra |].
  pose proof (half_bounds size) as [_ Hc].
  assert (Hpos : forall k, (0 <= Wave.wave_y size k)%R).
  { intros k. pose proof (wave_y_confined size k ltac:(lia)) as [Hk _]. lra. }
  exists (Py.py_int (Wave.wave_y size x)),
         (Py.py_int (Wave.wave_y size (x + 1))).
  split; [apply points_nth; lia |]. split; [apply points_nth; lia |].
  pose proof (py_int_close (Wave.wave_y size (x + 1)) (Wave.wave_y size x)
                (Hpos _) (Hpos _) ltac:(lra)).
  pose proof (py_int_close (Wave.wave_y size x) (Wave.wave_y size (x + 1))
                (Hpos _) (Hpos _) ltac:(lra)).
  lia.
Qed.

Lemma adjacent_samples_within_two_rows_witness :
  (Rabs (Wave.wave_y 32 (7 + 1) - Wave.wave_y 32 7) < 0.45 * PI)%R.
Proof.
  exact (proj1 (adjacent_samples_within_two_rows 32 7 ltac:(lia) ltac:(lia))).
Defined.



(** ** Where the drawing calls can paint (lines 34-54) *)

(** X8.  Given a library that paints an ellipse inside its bounding box
    and a stroke of width [w] within [w] rows of its vertices, every
    pixel that is outside the glow's bounding box and more than the
    stroke width away from the band of rows the wave uses keeps the
    background colour #05060A, at every size >= 5. *)
Theorem pixels_away_from_wave_and_glow_are_background
    (covers : Pil.draw_op -> Z * Z -> bool)
    (paint : string -> string -> Z * Z * Z -> Z * Z * Z)
    (size px py : Z) :
  Pil.ellipse_in_bbox covers ->
  Pil.line_near_vertices covers ->
  5 <= size ->
  py < size / 2 - 3 * size / 20 - 1 - Wave.line_width size \/
  size / 2 + 3 * size / 20 + Wave.line_width size < py ->
  px < Marker.marker_x size - Marker.glow_radius size \/
  Marker.marker_x size + Marker.glow_radius size < px \/
  py < Marker.marker_y size - Marker.glow_radius size \/
  Marker.marker_y size + Marker.glow_radius size < py ->
  Pil.getpixel covers paint (icon_image size) (px, py) = Some (5, 6, 10).
Proof.
  intros Hell Hline Hsize Hband Hbox. unfold Pil.getpixel.
  rewrite icon_image_drawn.
  change (Pil.rgb (Pil.color (icon_image size))) with (Some (5, 6, 10)).
  cbn [fold_left]. unfold Pil.paint_op.
  destruct (covers (Pil.Line _ _ _) _) eqn:Hstroke.
  { exfalso.
    apply (Hline _ _ _ _ _
             (size / 2 - 3 * size / 20 - 1) (size / 2 + 3 * size / 20))
      in Hstroke; [lia |].
    intros q Hq. apply points_In in Hq as [_ ->].
    apply wave_row_bounds. exact Hsize. }
  destruct (covers (Pil.Ellipse _ "#7AA7FF40") _) eqn:Hglow.
  { exfalso. apply Hell in Hglow. lia. }
  destruct (covers (Pil.Ellipse _ "#7AA7FF") _) eqn:Hdot.
  { exfalso. apply Hell in Hdot.
    unfold Marker.glow_radius in Hbox. lia. }
  reflexivity.
Qed.

Lemma pixels_away_from_wave_and_glow_are_background_witness :
  Pil.getpixel Pil.covers_std Pil.paint_opaque (icon_image 32) (16, 28)
  = Some (5, 6, 10).
Proof.
  apply (pixels_away_from_wave_and_glow_are_background
           Pil.covers_std Pil.paint_opaque 32 16 28).
  - exact covers_std_ellipse.
  - exact covers_std_line.
  - lia.
  - right. reflexivity.
  - right. right. right.
    unfold Marker.marker_y, Marker.glow_radius.
    rewrite half_amplitude_trunc by lia. reflexivity.
Defined.

(** ** What a run leaves behind (lines 56-67) *)

(** X10.  A run with the imaging dependency available changes the file
    system at the four icon filenames and nowhere else: every other file
    is left as it was, and the set of files afterwards is the set before
    plus the four names. *)
Theorem run_touches_only_the_four_files (w : World) :
  (forall name,
     ~ In name ["icon-192.png"; "icon-512.png"; "favicon.png";
                "apple-touch-icon.png"]%string ->
     files (snd (script true w)) !! name = files w !! name) /\
  dom (files (snd (script true w)))
  = dom (files w) ∪
    {["icon-192.png"; "icon-512.png"; "favicon.png";
      "apple-touch-icon.png"]}.
Proof.
  rewrite script_installed_run, main_run. cbn [snd files]. split.
  - intros name Hname. cbn [In] in Hname.
    assert (H192 : "icon-192.png"%string <> name)
      by (intros E; apply Hname; auto).
    assert (H512 : "icon-512.png"%string <> name)
      by (intros E; apply Hname; auto).
    assert (H32 : "favicon.png"%string <> name)
      by (intros E; apply Hname; auto).
    assert (H180 : "apple-touch-icon.png"%string <> name)
      by (intros E; apply Hname; auto 10).
    now rewrite !lookup_insert_ne by assumption.
  - rewrite !dom_insert_L. apply set_eq. intros name.
    rewrite !elem_of_union, !elem_of_singleton. tauto.
Qed.

(** X11.  A run with the imaging dependency available ends with exit
    status 0 and prints seven lines: the heading, one confirmation per
    icon naming the file and its size, in call order, and two closing
    lines. *)
Theorem successful_run_console_output (w : World) :
  exit_status (fst (script true w)) = 0 /\
  printed (events (snd (script true w)))
  = printed (events w) ++
    ["Generating SineDay Wave icons...";
     "✓ Created icon-192.png (192x192)";
     "✓ Created icon-512.png (512x512)";
     "✓ Created favicon.png (32x32)";
     "✓ Created apple-touch-icon.png (180x180)";
     String newline "✓ All icons generated successfully!";
     String newline "You can now delete ICONS_TODO.md and this script."
    ]%string.
Proof.
  rewrite script_installed_run, main_run. cbn [fst snd events].
  split; [reflexivity |]. rewrite printed_app. reflexivity.
Qed.

(** ** The course of the wave across the icon (lines 27-31) *)

(** X12.  At every size >= 1 the polyline starts on the centre row: its
    first vertex is (0, size // 2), because the phase of column 0 is 0. *)
Theorem polyline_starts_on_center_row (size : Z) :
  1 <= size ->
  nth_error (Wave.points size) 0 = Some (0, Wave.wave_center_y size) /\
  Wave.sine_term size 0 = 0%R.
Proof.
  intros Hsize. split.
  - change 0%nat with (Z.to_nat 0). rewrite points_nth by lia.
    now rewrite wave_y_column_0.
  - unfold Wave.sine_term. rewrite normalized_x_scaled by lia.
    rewrite Rmult_0_l. apply sin_0.
Qed.

Lemma polyline_starts_on_center_row_witness :
  nth_error (Wave.points 512) 0 = Some (0, Wave.wave_center_y 512).
Proof.
  exact (proj1 (polyline_starts_on_center_row 512 ltac:(lia))).
Defined.

(** X13.  Across the width the wave goes down, up and down again, one
    and a half oscillations.  On the first third of the columns
    (3x < size) and on the last third (2*size < 3x) the sine term is not
    negative and the sample is on or below the centre row
    (row >= size // 2).  Strictly inside the middle third
    (size < 3x < 2*size) the sine term is negative, and on the whole
    middle third (size <= 3x <= 2*size) the sample is on or above the
    centre row (row <= size // 2). *)
Theorem wave_side_of_center_by_thirds (size x : Z) :
  1 <= size -> 0 <= x < size ->
  (3 * x < size \/ 2 * size < 3 * x ->
   (0 <= Wave.sine_term size x)%R /\
   Wave.wave_center_y size <= Py.py_int (Wave.wave_y size x)) /\
  (size < 3 * x < 2 * size -> (Wave.sine_term size x < 0)%R) /\
  (size <= 3 * x <= 2 * size ->
   Py.py_int (Wave.wave_y size x) <= Wave.wave_center_y size).
Proof.
  intros Hsize Hx.
  assert (HsR : (1 <= IZR size)%R) by (apply IZR_le; exact Hsize).
  assert (Hx0 : (0 <= IZR x)%R) by (apply IZR_le; lia).
  assert (Hx1 : (IZR x <= IZR size)%R) by (apply IZR_le; lia).
  pose proof PI_RGT_0 as Hpi.
  set (d := (3 * PI / IZR size)%R).
  assert (Hd0 : (0 < d)%R) by (unfold d; apply Rdiv_lt_0_compat; lra).
  assert (Hds : (IZR size * d = 3 * PI)%R) by (unfold d; field; lra).
  assert (Hterm : Wave.sine_term size x = sin (IZR x * d)).
  { unfold Wave.sine_term. now rewrite normalized_x_scaled by lia. }
  assert (Hc0 : 0 <= Wave.wave_center_y size)
    by (unfold Wave.wave_center_y; apply Z.div_pos; lia).
  assert (Hamp : (0 <= Wave.wave_amplitude size)%R)
    by (unfold Wave.wave_amplitude; lra).
  split.
  - intros Hthird.
    assert (Hsin : (0 <= Wave.sine_term size x)%R).
    { rewrite Hterm. destruct Hthird as [Hfirst | Hlast].
      - assert (3 * IZR x <= IZR size)%R
          by (rewrite <- mult_IZR; apply IZR_le; lia).
        apply sin_ge_0; nra.
      - assert (2 * IZR size <= 3 * IZR x)%R
          by (rewrite <- !mult_IZR; apply IZR_le; lia).
        replace (IZR x * d)%R with (IZR x * d - 2 * PI + 2 * INR 1 * PI)%R
          by (simpl (INR 1); ring).
        rewrite sin_period. apply sin_ge_0; nra. }
    split; [exact Hsin |].
    apply py_int_ge; [| exact Hc0]. unfold Wave.wave_y. nra.
  - split.
    + intros Hinside. rewrite Hterm.
      assert (IZR size < 3 * IZR x)%R
        by (rewrite <- mult_IZR; apply IZR_lt; lia).
      assert (3 * IZR x < 2 * IZR size)%R
        by (rewrite <- !mult_IZR; apply IZR_lt; lia).
      apply sin_lt_0; nra.
    + intros Hmiddle.
      assert (Hsin : (Wave.sine_term size x <= 0)%R).
      { rewrite Hterm.
        assert (IZR size <= 3 * IZR x)%R
          by (rewrite <- mult_IZR; apply IZR_le; lia).
        assert (3 * IZR x <= 2 * IZR size)%R
          by (rewrite <- !mult_IZR; apply IZR_le; lia).
        apply sin_le_0; nra. }
      apply py_int_le; [exact Hc0 |]. unfold Wave.wave_y. nra.
Qed.

Lemma wave_side_of_center_by_thirds_witness :
  Py.py_int (Wave.wave_y 192 96) <= Wave.wave_center_y 192.
Proof.
  exact (proj2 (proj2
    (wave_side_of_center_by_thirds 192 96 ltac:(lia) ltac:(lia)))
    ltac:(lia)).
Defined.
